(** * The environment record of the Coffee-shop front end

    A shallow embedding of [frontend/src/environments/environment.ts]:
    the object literal bound to the exported constant [environment],
    the way a JavaScript run time sees it (an ordered list of own
    properties, each holding a boolean, a string or a nested object),
    with property reads and assignments on it. *)

From Stdlib Require Import Strings.String Strings.Ascii Lists.List Bool.Bool.
From Stdlib Require Import Arith.PeanoNat NArith.NArith Lia.
From Stdlib Require Import Relations.Relation_Operators.
Import ListNotations.
Open Scope string_scope.
Set Warnings "-register-all".

(** ** Values of the object literal *)

Module JS.

(** The literal holds one boolean, five strings and one nested object;
    properties are kept in source order. *)
Inductive value : Type :=
| VBool (b : bool)
| VStr (s : string)
| VObj (props : list (string * value)).

(** What [typeof] answers on such a value. *)
Inductive ty : Type := TBoolean | TString | TObject.

Definition typeof (v : value) : ty :=
  match v with
  | VBool _ => TBoolean
  | VStr _ => TString
  | VObj _ => TObject
  end.

Definition path : Type := list string.

(** Own-property lookup, first match in property order. *)
Fixpoint lookup (k : string) (ps : list (string * value)) : option value :=
  match ps with
  | [] => None
  | (k', w) :: r => if (k =? k')%string then Some w else lookup k r
  end.

(** [v.k]: [None] stands for a property that is not there (the run
    time answers [undefined]). *)
Definition get_own (k : string) (v : value) : option value :=
  match v with
  | VObj ps => lookup k ps
  | _ => None
  end.

(** [v.k1.k2...]: a member chain; it is [None] as soon as one link is
    missing. *)
Fixpoint get (p : path) (v : value) : option value :=
  match p with
  | [] => Some v
  | k :: p' =>
      match get_own k v with
      | Some w => get p' w
      | None => None
      end
  end.

Definition under (k : string) {A : Type} (e : path * A) : path * A :=
  (k :: fst e, snd e).

(** The primitive-valued fields of a value, each with the member chain
    that reaches it, in source order. *)
Fixpoint leaves (v : value) : list (path * value) :=
  match v with
  | VObj ps =>
      (fix over (l : list (string * value)) : list (path * value) :=
         match l with
         | [] => []
         | (k, w) :: r => (map (under k) (leaves w) ++ over r)%list
         end) ps
  | _ => [([], v)]
  end.

(** Every member chain that reaches something: the value itself, its
    nested objects and its primitive fields. *)
Fixpoint paths (v : value) : list path :=
  match v with
  | VObj ps =>
      [] :: (fix over (l : list (string * value)) : list path :=
               match l with
               | [] => []
               | (k, w) :: r => (map (cons k) (paths w) ++ over r)%list
               end) ps
  | _ => [[]]
  end.

(** The shape of a value: field names with the type of what they hold. *)
Inductive shape : Type :=
| SBoolean
| SString
| SRecord (fields : list (string * shape)).

Fixpoint shape_of (v : value) : shape :=
  match v with
  | VBool _ => SBoolean
  | VStr _ => SString
  | VObj ps =>
      SRecord ((fix over (l : list (string * value)) : list (string * shape) :=
                  match l with
                  | [] => []
                  | (k, w) :: r => (k, shape_of w) :: over r
                  end) ps)
  end.

(** [o.k = x] on the property list of a plain object: an existing
    property is overwritten in place, a new one is appended. *)
Fixpoint update (k : string) (x : value) (ps : list (string * value))
  : list (string * value) :=
  match ps with
  | [] => [(k, x)]
  | (k', w) :: r =>
      if (k =? k')%string then (k, x) :: r else (k', w) :: update k x r
  end.

(** [environment.k1...kn = x].  The empty chain is an assignment to the
    [const] binding itself, which is refused; a chain through something
    that is not an object is refused too.  The literal's objects are
    plain objects (nothing freezes them), so the last link is a plain
    property assignment. *)
Fixpoint put (p : path) (x : value) (v : value) : option value :=
  match p with
  | [] => None
  | k :: p' =>
      match v with
      | VObj ps =>
          match p' with
          | [] => Some (VObj (update k x ps))
          | _ :: _ =>
              match lookup k ps with
              | Some w =>
                  match put p' x w with
                  | Some w' => Some (VObj (update k w' ps))
                  | None => None
                  end
              | None => None
              end
          end
      | _ => None
      end
  end.

End JS.

Import JS.

(** ** The source file *)

(** [export const environment = { ... };] *)
Definition environment : value :=
  VObj
    [ ("production", VBool false);
      ("apiServerUrl", VStr "http://127.0.0.1:5000");
      ("auth0",
        VObj
          [ ("url", VStr "ui-integrated.eu");
            ("audience", VStr "http://127.0.0.1:5000");
            ("clientId", VStr "qoP62ttvoO2QNptGjGt1ZX865aiRQx5d");
            ("callbackURL", VStr "http://127.0.0.1:8100") ]) ].

(** The string a member chain yields, when it yields one. *)
Definition get_string (p : path) (v : value) : option string :=
  match get p v with
  | Some (VStr s) => Some s
  | _ => None
  end.

Definition get_bool (p : path) (v : value) : option bool :=
  match get p v with
  | Some (VBool b) => Some b
  | _ => None
  end.

(** The member chains of the fields that hold URLs. *)
Definition url_fields : list path :=
  [ ["apiServerUrl"]; ["auth0"; "audience"]; ["auth0"; "callbackURL"] ].

(** The record as §3 of the specification words it; kept apart from
    [shape_of environment], which is read off the source, so that the two
    can be compared. *)
Definition section3_shape : shape :=
  SRecord
    [ ("production", SBoolean);
      ("apiServerUrl", SString);
      ("auth",
        SRecord
          [ ("domainPrefix", SString);
            ("audience", SString);
            ("clientId", SString);
            ("callbackUrl", SString) ]) ].

(** ** Character classes and a reference URL grammar *)

Module Chars.

Definition code (c : ascii) : nat := nat_of_ascii c.

Definition between (lo hi : nat) (c : ascii) : bool :=
  (lo <=? code c)%nat && (code c <=? hi)%nat.

Definition is_digit : ascii -> bool := between 48 57.
Definition is_upper : ascii -> bool := between 65 90.
Definition is_lower : ascii -> bool := between 97 122.
Definition is_alpha (c : ascii) : bool := is_upper c || is_lower c.
Definition is_alnum (c : ascii) : bool := is_alpha c || is_digit c.
Definition is_visible : ascii -> bool := between 33 126.

Definition one_of (s : string) (c : ascii) : bool :=
  existsb (Ascii.eqb c) (list_ascii_of_string s).

Fixpoint all (f : ascii -> bool) (s : string) : bool :=
  match s with
  | EmptyString => true
  | String c r => f c && all f r
  end.

(** Longest prefix whose characters satisfy [f], and what follows it. *)
Fixpoint span (f : ascii -> bool) (s : string) : string * string :=
  match s with
  | EmptyString => ("", "")
  | String c r =>
      if f c then (String c (fst (span f r)), snd (span f r)) else ("", s)
  end.

(** [strip pre s] is what follows [pre] in [s], when [s] starts with it. *)
Fixpoint strip (pre s : string) : option string :=
  match pre, s with
  | EmptyString, _ => Some s
  | String a pre', String b s' =>
      if Ascii.eqb a b then strip pre' s' else None
  | String _ _, EmptyString => None
  end.

Fixpoint decimal_from (acc : N) (s : string) : N :=
  match s with
  | EmptyString => acc
  | String c r => decimal_from (acc * 10 + N.of_nat (code c - 48)) r
  end.

Definition decimal : string -> N := decimal_from 0.

(** The pieces of [s] between occurrences of [sep]; [cur] is the piece
    being read, reversed. *)
Fixpoint split_from (sep : ascii) (cur : string) (s : string) : list string :=
  match s with
  | EmptyString => [cur]
  | String c r =>
      if Ascii.eqb c sep then cur :: split_from sep "" r
      else split_from sep (cur ++ String c "") r
  end.

Definition split (sep : ascii) : string -> list string := split_from sep "".

End Chars.

Module Url.
Import Chars.

(** Hosts: a dotted-decimal IPv4 address or a registered name. *)
Inductive host : Type :=
| IPv4 (a b c d : N)
| RegName (n : string).

Record url : Type := mk_url {
  scheme : string;
  authority_host : host;
  port : option N;
  rest : string
}.

Definition is_scheme_char (c : ascii) : bool := is_alnum c || one_of "+-." c.
Definition is_host_char (c : ascii) : bool := is_alnum c || one_of "-._~" c.

(** A decimal octet: one to three digits, no leading zero, at most 255. *)
Definition octet (s : string) : option N :=
  match s with
  | EmptyString => None
  | String c r =>
      if all is_digit s
         && (String.length s <=? 3)%nat
         && (negb (Ascii.eqb c "0") || (r =? "")%string)
         && (decimal s <=? 255)%N
      then Some (decimal s) else None
  end.

Definition classify (h : string) : host :=
  match map octet (split "." h) with
  | [Some a; Some b; Some c; Some d] => IPv4 a b c d
  | _ => RegName h
  end.

(** [":" digits] in front of [s], when there is one; a port is a number
    below 65536. *)
Definition take_port (s : string) : option (option N * string) :=
  match s with
  | String ":" r =>
      let ds := fst (span is_digit r) in
      if (ds =? "")%string then Some (None, snd (span is_digit r))
      else if (String.length ds <=? 5)%nat && (decimal ds <? 65536)%N
           then Some (Some (decimal ds), snd (span is_digit r))
           else None
  | _ => Some (None, s)
  end.

(** What may follow the authority: nothing, or a path, query or fragment
    of visible characters. *)
Definition rest_ok (s : string) : bool :=
  match s with
  | EmptyString => true
  | String c _ => one_of "/?#" c && all is_visible s
  end.

(** [scheme "://" host [":" port] rest], the scheme starting with a
    letter and the host not empty. *)
Definition parse (s : string) : option url :=
  match fst (span is_scheme_char s) with
  | EmptyString => None
  | String c0 _ as sch =>
      if is_alpha c0 then
        match strip "://" (snd (span is_scheme_char s)) with
        | None => None
        | Some r2 =>
            let h := fst (span is_host_char r2) in
            if (h =? "")%string then None
            else
              match take_port (snd (span is_host_char r2)) with
              | None => None
              | Some (pt, r4) =>
                  if rest_ok r4 then Some (mk_url sch (classify h) pt r4)
                  else None
              end
        end
      else None
  end.

End Url.

(** ** The record in a running process *)

Module Process.

(** What a consumer can do to the record, and what it gets back. *)
Inductive op : Type :=
| Read (p : path)
| Write (p : path) (x : value).

Inductive outcome : Type :=
| Returned (v : value)
| Absent
| Done
| Failed.

(** One operation on the record: the answer and the record afterwards. *)
Definition exec (o : op) (r : value) : outcome * value :=
  match o with
  | Read p =>
      (match get p r with Some v => Returned v | None => Absent end, r)
  | Write p x =>
      match put p x r with
      | Some r' => (Done, r')
      | None => (Failed, r)
      end
  end.

(** A process: the record the module binding holds, and the answers
    its reads have had so far. *)
Record process : Type := mk_process {
  record : value;
  observed : list (path * outcome)
}.

(** Evaluating the module binds the literal. *)
Definition loaded : process := mk_process environment [].

Definition after (o : op) (s : process) : process :=
  mk_process (snd (exec o (record s)))
    (match o with
     | Read p => observed s ++ [(p, fst (exec o (record s)))]
     | Write _ _ => observed s
     end)%list.

(** Modelled from the spec: the code that consumes the record is not in
    this file.  §3 to §5 say it is loaded once at startup and that the
    rest of the application only reads its fields, so a step of the
    process is a read. *)
Inductive step : process -> process -> Prop :=
| step_read (p : path) (s : process) : step s (after (Read p) s).

Definition reachable : process -> Prop :=
  clos_refl_trans_n1 process step loaded.

(** The claim of §8 on overwrites, as it is worded: an overwrite fails,
    or no later read can tell. *)
Definition overwrite_unobservable (r : value) : Prop :=
  forall (p : path) (x : value),
    fst (exec (Write p x) r) = Failed
    \/ forall q : path, get q (snd (exec (Write p x) r)) = get q r.

End Process.

Import Process.

(** The URL a member chain yields, when it yields a string that parses. *)
Definition url_at (p : path) (v : value) : option Url.url :=
  match get_string p v with
  | Some s => Url.parse s
  | None => None
  end.

(** The field names of §3 mapped to the names the source gives the same
    fields. *)
Definition source_name (k : string) : string :=
  if (k =? "auth")%string then "auth0"
  else if (k =? "domainPrefix")%string then "url"
  else if (k =? "callbackUrl")%string then "callbackURL"
  else k.

Fixpoint rename (f : string -> string) (s : shape) : shape :=
  match s with
  | SRecord fs =>
      SRecord ((fix over (l : list (string * shape)) : list (string * shape) :=
                  match l with
                  | [] => []
                  | (k, t) :: r => (f k, rename f t) :: over r
                  end) fs)
  | _ => s
  end.




(** The characters of the segments of a path and the "/" between them:
    letters, digits, "-._~", "!$&'()*+,;=", ":" and "@".  A query or a
    fragment would start with "?" or "#", which are not among them. *)
Definition is_path_char (c : ascii) : bool :=
  Chars.is_alnum c || Chars.one_of "-._~!$&'()*+,;=:@/" c.

(** [x] does not occur in [s]. *)
Definition free_of (x : ascii) (s : string) : bool :=
  Chars.all (fun c => negb (Ascii.eqb c x)) s.

(** * Properties *)

(** ** Reads and assignments on any value *)

Section Store.

Variables (k : string) (x : value).

Lemma lookup_update_same (ps : list (string * value)) :
  lookup k (update k x ps) = Some x.
Proof.
  induction ps as [|[k' w] r IH]; simpl.
  - now rewrite String.eqb_refl.
  - destruct (k =? k')%string eqn:E; simpl.
    + now rewrite String.eqb_refl.
    + now rewrite E.
Qed.

End Store.

(** A read after an assignment that went through sees the assigned
    value. *)
Lemma get_put_same (p : path) (x : value) :
  forall r r' : value, put p x r = Some r' -> get p r' = Some x.
Proof.
  induction p as [|k p' IH]; intros r r' H; [discriminate|].
  destruct r as [b|s|ps]; try discriminate.
  cbn [put] in H. destruct p' as [|k2 p''].
  - injection H as <-. cbn. now rewrite lookup_update_same.
  - destruct (lookup k ps) as [w|]; [|discriminate].
    destruct (put (k2 :: p'') x w) as [w'|] eqn:E; [|discriminate].
    injection H as <-.
    change (get (k :: k2 :: p'') (VObj (update k w' ps)))
      with (match lookup k (update k w' ps) with
            | Some u => get (k2 :: p'') u
            | None => None
            end).
    rewrite lookup_update_same. now apply IH with (r := w).
Qed.

(** A read gives the record back as it was. *)
Lemma exec_read_keeps (p : path) (r : value) : snd (exec (Read p) r) = r.
Proof. reflexivity. Qed.

(** Along steps of the process the record stays what it was. *)
Lemma steps_keep_record (s s' : process) :
  clos_refl_trans_n1 process step s s' -> record s' = record s.
Proof.
  induction 1 as [|t u Hstep _ IH]; [reflexivity|].
  destruct Hstep as [p t]. cbn [after record]. now rewrite exec_read_keeps.
Qed.

(** The character classes say what their names say. *)
Lemma is_alnum_spec (c : ascii) :
  Chars.is_alnum c = true <->
  (65 <= Chars.code c <= 90 \/ 97 <= Chars.code c <= 122
   \/ 48 <= Chars.code c <= 57)%nat.
Proof.
  unfold Chars.is_alnum, Chars.is_alpha, Chars.is_upper, Chars.is_lower,
    Chars.is_digit, Chars.between.
  rewrite !orb_true_iff, !andb_true_iff, !Nat.leb_le. tauto.
Qed.

(** The grammar refuses what is not a URL: the empty string, the bare
    domain of the [url] field, a scheme with no host, a port out of
    range. *)
Example parse_rejects :
  Url.parse "" = None
  /\ Url.parse "ui-integrated.eu" = None
  /\ Url.parse "http://" = None
  /\ Url.parse "http://127.0.0.1:65536" = None
  /\ Url.parse "http://127.0.0.1 :5000" = None.
Proof. repeat split; reflexivity. Qed.

Example parse_accepts_name_and_path :
  Url.parse "https://example.com:443/x?y#z"
  = Some (Url.mk_url "https" (Url.RegName "example.com") (Some 443%N) "/x?y#z").
Proof. reflexivity. Qed.

(** ** The values of the record *)

(** C1: the exported constant holds the values of §6, field for field:
    [production] is the boolean false, [apiServerUrl] is
    "http://127.0.0.1:5000", and in the nested auth record the domain
    prefix (the source's [url]) is "ui-integrated.eu", the audience is
    "http://127.0.0.1:5000", the client identifier is
    "qoP62ttvoO2QNptGjGt1ZX865aiRQx5d" and the callback URL (the source's
    [callbackURL]) is "http://127.0.0.1:8100"; reading each field yields
    that value, and these six are all the fields there are. *)
Theorem environment_values :
  get_bool ["production"] environment = Some false
  /\ get_string ["apiServerUrl"] environment = Some "http://127.0.0.1:5000"
  /\ get_string ["auth0"; "url"] environment = Some "ui-integrated.eu"
  /\ get_string ["auth0"; "audience"] environment
     = Some "http://127.0.0.1:5000"
  /\ get_string ["auth0"; "clientId"] environment
     = Some "qoP62ttvoO2QNptGjGt1ZX865aiRQx5d"
  /\ get_string ["auth0"; "callbackURL"] environment
     = Some "http://127.0.0.1:8100"
  /\ map fst (leaves environment)
     = [ ["production"]; ["apiServerUrl"]; ["auth0"; "url"];
         ["auth0"; "audience"]; ["auth0"; "clientId"];
         ["auth0"; "callbackURL"] ].
Proof. repeat split; reflexivity. Qed.

(** ** The shape of the record *)

(** The record does not have the field names §3 gives it: there is no
    [auth] member, and so no [auth.domainPrefix] or [auth.callbackUrl]
    either. *)
Lemma section3_names_absent :
  shape_of environment <> section3_shape
  /\ get ["auth"] environment = None
  /\ get ["auth0"; "domainPrefix"] environment = None
  /\ get ["auth0"; "callbackUrl"] environment = None.
Proof.
  split; [|repeat split; reflexivity].
  intros H. cbv in H. discriminate H.
Qed.

(** C2, amended: the record consists of exactly a top-level [production]
    flag, a top-level [apiServerUrl] string and one nested record, named
    [auth0], whose fields are [url], [audience], [clientId] and
    [callbackURL], all strings; no other fields and no other nesting.
    This is the shape of §3 with [auth], [domainPrefix] and [callbackUrl]
    renamed to [auth0], [url] and [callbackURL]. *)
Theorem environment_shape :
  shape_of environment
  = SRecord
      [ ("production", SBoolean);
        ("apiServerUrl", SString);
        ("auth0",
          SRecord
            [ ("url", SString);
              ("audience", SString);
              ("clientId", SString);
              ("callbackURL", SString) ]) ]
  /\ shape_of environment = rename source_name section3_shape.
Proof. split; reflexivity. Qed.

(** C3: every field of the record is present with its declared type:
    [production] is a boolean, the five other fields are strings, and no
    string field is empty. *)
Theorem environment_fields_typed_nonempty :
  map (fun e => (fst e, typeof (snd e))) (leaves environment)
  = [ (["production"], TBoolean);
      (["apiServerUrl"], TString);
      (["auth0"; "url"], TString);
      (["auth0"; "audience"], TString);
      (["auth0"; "clientId"], TString);
      (["auth0"; "callbackURL"], TString) ]
  /\ Forall (fun e => get (fst e) environment = Some (snd e))
       (leaves environment)
  /\ Forall (fun e => snd e <> VStr "") (leaves environment).
Proof.
  split; [reflexivity|].
  split; cbv [leaves environment under map app fst snd];
    repeat constructor; discriminate.
Qed.

(** C4: [apiServerUrl], the auth record's [audience] and its callback
    URL each parse as a URL: scheme "http", an IPv4 host and a port. *)
Theorem url_fields_parse :
  url_at ["apiServerUrl"] environment
  = Some (Url.mk_url "http" (Url.IPv4 127 0 0 1) (Some 5000%N) "")
  /\ url_at ["auth0"; "audience"] environment
     = Some (Url.mk_url "http" (Url.IPv4 127 0 0 1) (Some 5000%N) "")
  /\ url_at ["auth0"; "callbackURL"] environment
     = Some (Url.mk_url "http" (Url.IPv4 127 0 0 1) (Some 8100%N) "").
Proof. repeat split; reflexivity. Qed.

(** C8: the auth record's [audience] is the same string as the top-level
    [apiServerUrl], namely "http://127.0.0.1:5000". *)
Theorem audience_is_api_server_url :
  get_string ["auth0"; "audience"] environment
  = get_string ["apiServerUrl"] environment
  /\ get_string ["apiServerUrl"] environment = Some "http://127.0.0.1:5000".
Proof. split; reflexivity. Qed.

(** C9: the auth record's [clientId] is a string of exactly 32
    characters, each an ASCII letter or digit. *)
Theorem client_id_32_alnum :
  exists s : string,
    get_string ["auth0"; "clientId"] environment = Some s
    /\ String.length s = 32
    /\ Forall (fun c => (65 <= Chars.code c <= 90
                         \/ 97 <= Chars.code c <= 122
                         \/ 48 <= Chars.code c <= 57)%nat)
         (list_ascii_of_string s).
Proof.
  eexists. split; [reflexivity|]. split; [reflexivity|].
  apply Forall_forall. intros c Hc. apply is_alnum_spec.
  revert c Hc. apply (proj1 (forallb_forall Chars.is_alnum _)).
  vm_compute. reflexivity.
Qed.

(** C10: every URL-valued field ([apiServerUrl], [audience],
    [callbackURL]) begins with "http://127.0.0.1", that is, has the plain
    "http" scheme and the loopback host, and [production] is false. *)
Theorem url_fields_local :
  Forall
    (fun p =>
       exists (s : string) (u : Url.url),
         get_string p environment = Some s
         /\ String.prefix "http://127.0.0.1" s = true
         /\ Url.parse s = Some u
         /\ Url.scheme u = "http"
         /\ Url.authority_host u = Url.IPv4 127 0 0 1)
    url_fields
  /\ get_bool ["production"] environment = Some false.
Proof.
  split; [|reflexivity].
  unfold url_fields.
  constructor;
    [exists "http://127.0.0.1:5000",
       (Url.mk_url "http" (Url.IPv4 127 0 0 1) (Some 5000%N) "")|].
  2: constructor;
    [exists "http://127.0.0.1:5000",
       (Url.mk_url "http" (Url.IPv4 127 0 0 1) (Some 5000%N) "")|].
  3: constructor;
    [exists "http://127.0.0.1:8100",
       (Url.mk_url "http" (Url.IPv4 127 0 0 1) (Some 8100%N) "")|].
  4: constructor.
  all: vm_compute; repeat split; reflexivity.
Qed.

(** ** Reading and overwriting *)

(** C6: reading the record, its nested auth record or any of its fields
    always yields a value, never an absent one or a failure, and leaves
    the record as it was. *)
Theorem read_total (p : path) :
  In p (paths environment) ->
  exists v : value,
    get p environment = Some v
    /\ exec (Read p) environment = (Returned v, environment).
Proof.
  intros H. cbv [paths environment map app] in H.
  repeat (destruct H as [<-|H]; [eexists; split; reflexivity|]).
  destruct H.
Qed.

Lemma read_total_witness :
  In ["auth0"; "clientId"] (paths environment)
  /\ exists v : value,
       get ["auth0"; "clientId"] environment = Some v
       /\ exec (Read ["auth0"; "clientId"]) environment
          = (Returned v, environment).
Proof.
  assert (H : In ["auth0"; "clientId"] (paths environment))
    by (vm_compute; tauto).
  split; [exact H | exact (read_total ["auth0"; "clientId"] H)].
Defined.

(** The record is not immutable in the sense of §8: assigning [true] to
    [production] goes through, and the next read of [production] sees
    it. *)
Lemma overwrite_is_observable : ~ overwrite_unobservable environment.
Proof.
  intros H. destruct (H ["production"] (VBool true)) as [F|G].
  - vm_compute in F. discriminate F.
  - specialize (G ["production"]). vm_compute in G. discriminate G.
Qed.

(** C5, amended: while the process only reads, any two reads of a field,
    at any two points of its lifetime, return identical values, and the
    [const] binding itself cannot be reassigned; but the object is not
    frozen: an overwrite of any of its fields goes through, and a
    subsequent read of that field returns the value written. *)
Theorem reads_agree_overwrite_shows
  (s1 s2 : process) (q p : path) (x : value) :
  reachable s1 -> reachable s2 ->
  In p (map fst (leaves environment)) ->
  fst (exec (Read q) (record s1)) = fst (exec (Read q) (record s2))
  /\ exec (Write [] x) (record s2) = (Failed, record s2)
  /\ exists r' : value,
       exec (Write p x) (record s2) = (Done, r')
       /\ exec (Read p) r' = (Returned x, r').
Proof.
  intros H1 H2 Hp.
  apply steps_keep_record in H1, H2. rewrite H1, H2.
  change (record loaded) with environment.
  split; [reflexivity|]. split; [reflexivity|].
  assert (Hput : exists r', put p x environment = Some r').
  { cbv [leaves environment under map app fst snd] in Hp.
    repeat (destruct Hp as [<-|Hp]; [eexists; reflexivity|]).
    destruct Hp. }
  destruct Hput as [r' Hput]. exists r'.
  unfold exec. rewrite Hput, (get_put_same _ _ _ _ Hput). now split.
Qed.

Lemma reads_agree_overwrite_shows_witness :
  reachable loaded
  /\ reachable (after (Read ["auth0"; "url"]) loaded)
  /\ In ["production"] (map fst (leaves environment))
  /\ fst (exec (Read ["apiServerUrl"]) (record loaded))
     = fst (exec (Read ["apiServerUrl"])
              (record (after (Read ["auth0"; "url"]) loaded)))
  /\ exec (Write [] (VBool true))
       (record (after (Read ["auth0"; "url"]) loaded))
     = (Failed, record (after (Read ["auth0"; "url"]) loaded))
  /\ exists r' : value,
       exec (Write ["production"] (VBool true))
         (record (after (Read ["auth0"; "url"]) loaded))
       = (Done, r')
       /\ exec (Read ["production"]) r' = (Returned (VBool true), r').
Proof.
  assert (R1 : reachable loaded) by apply rtn1_refl.
  assert (R2 : reachable (after (Read ["auth0"; "url"]) loaded))
    by (eapply rtn1_trans; [apply step_read | apply rtn1_refl]).
  assert (I : In ["production"] (map fst (leaves environment)))
    by (vm_compute; tauto).
  split; [exact R1|]. split; [exact R2|]. split; [exact I|].
  exact (reads_agree_overwrite_shows loaded
           (after (Read ["auth0"; "url"]) loaded)
           ["apiServerUrl"] ["production"] (VBool true) R1 R2 I).
Defined.

(** ** What changes the record *)








(** * Further properties *)

(** ** The grammar on strings put together from parts *)

Section Spans.

Variable f : ascii -> bool.

Lemma all_app (a b : string) :
  Chars.all f (a ++ b) = Chars.all f a && Chars.all f b.
Proof.
  induction a as [|c a IH]; [reflexivity|].
  cbn [append Chars.all]. now rewrite IH, andb_assoc.
Qed.

(** A run of [f]-characters in front of something [span f] takes nothing
    of is split off whole. *)
Lemma span_app (a b : string) :
  Chars.all f a = true ->
  Chars.span f b = ("", b) ->
  Chars.span f (a ++ b) = (a, b).
Proof.
  intros Ha Hb. induction a as [|c a IH]; [exact Hb|].
  cbn [Chars.all] in Ha. apply andb_true_iff in Ha as [Hc Ha].
  cbn [append Chars.span]. now rewrite Hc, (IH Ha).
Qed.

Lemma span_stop (c : ascii) (t : string) :
  f c = false -> Chars.span f (String c t) = ("", String c t).
Proof. intros H. cbn [Chars.span]. now rewrite H. Qed.

End Spans.

Lemma append_empty_r (s : string) : s ++ "" = s.
Proof. induction s as [|c s IH]; [reflexivity|]. cbn. now rewrite IH. Qed.

(** A scheme, "://", a host and a tail the host does not run into: the
    parser splits them apart again and goes on with the tail. *)
Lemma parse_parts (c0 : ascii) (sch h tail : string) :
  Chars.is_alpha c0 = true ->
  Chars.all Url.is_scheme_char sch = true ->
  Chars.all Url.is_host_char h = true ->
  h <> "" ->
  Chars.span Url.is_host_char tail = ("", tail) ->
  Url.parse (String c0 sch ++ "://" ++ h ++ tail)
  = match Url.take_port tail with
    | None => None
    | Some (pt, r) =>
        if Url.rest_ok r
        then Some (Url.mk_url (String c0 sch) (Url.classify h) pt r)
        else None
    end.
Proof.
  intros Hc Hs Hh Hne Ht. unfold Url.parse.
  assert (Hsch : Chars.all Url.is_scheme_char (String c0 sch) = true).
  { cbn [Chars.all]. rewrite Hs. unfold Url.is_scheme_char, Chars.is_alnum.
    now rewrite Hc. }
  rewrite (span_app Url.is_scheme_char (String c0 sch) ("://" ++ h ++ tail) Hsch)
    by reflexivity.
  cbn [fst snd]. rewrite Hc.
  change (Chars.strip "://" ("://" ++ h ++ tail)) with (Some (h ++ tail)).
  cbv beta iota.
  rewrite (span_app Url.is_host_char h tail Hh Ht). cbn [fst snd].
  apply String.eqb_neq in Hne. now rewrite Hne.
Qed.

(** [":" digits] in front of a tail that does not start with a digit. *)
Lemma take_port_digits (ds r : string) :
  Chars.all Chars.is_digit ds = true ->
  ds <> "" ->
  Chars.span Chars.is_digit r = ("", r) ->
  Url.take_port (String ":" (ds ++ r))
  = if (String.length ds <=? 5)%nat && (Chars.decimal ds <? 65536)%N
    then Some (Some (Chars.decimal ds), r) else None.
Proof.
  intros Hd Hne Hr. unfold Url.take_port.
  rewrite (span_app Chars.is_digit ds r Hd Hr). cbn [fst snd].
  apply String.eqb_neq in Hne. now rewrite Hne.
Qed.

(** ** Building URLs on the fields *)

Lemma rest_ok_path (t : string) :
  Chars.all Chars.is_visible t = true -> Url.rest_ok (String "/" t) = true.
Proof.
  intros H. unfold Url.rest_ok. cbn [Chars.all]. rewrite H. reflexivity.
Qed.

Lemma path_char_visible (c : ascii) :
  is_path_char c = true -> Chars.is_visible c = true.
Proof.
  destruct c as [[] [] [] [] [] [] [] []]; vm_compute; intros H;
    first [reflexivity | discriminate H].
Qed.

Lemma all_path_visible (t : string) :
  Chars.all is_path_char t = true -> Chars.all Chars.is_visible t = true.
Proof.
  induction t as [|c t IH]; [reflexivity|].
  cbn [Chars.all]. rewrite !andb_true_iff. intros [Hc Ht].
  split; [now apply path_char_visible | now apply IH].
Qed.

Lemma alpha_stops (c : ascii) :
  Chars.is_alpha c = true ->
  Chars.is_digit c = false /\ Chars.one_of "/?#" c = false.
Proof.
  destruct c as [[] [] [] [] [] [] [] []]; vm_compute; intros H;
    first [split; reflexivity | discriminate H].
Qed.

(** X1: each URL field is a bare origin with nothing after the port, so
    putting a path after it ("/" and then path characters: letters,
    digits, "-._~!$&'()*+,;=:@" and "/") gives a URL with the field's own
    scheme, host and port, and with that path, whole and with no query
    or fragment, as all that follows. *)
Theorem url_field_extends_with_path (p : path) (base t : string) :
  In p url_fields ->
  get_string p environment = Some base ->
  Chars.all is_path_char t = true ->
  exists u : Url.url,
    Url.parse base = Some u
    /\ Url.rest u = ""
    /\ Url.parse (base ++ String "/" t)
       = Some (Url.mk_url (Url.scheme u) (Url.authority_host u) (Url.port u)
                 (String "/" t))
    /\ free_of "?" (String "/" t) = true
    /\ free_of "#" (String "/" t) = true.
Proof.
  intros Hp Hb Hpath.
  assert (Hfree : forall x : ascii,
             is_path_char x = false -> free_of x (String "/" t) = true).
  { intros x Hx. unfold free_of. cbn [Chars.all].
    assert (Hall : Chars.all (fun c => negb (Ascii.eqb c x)) t = true).
    { clear Hp Hb. induction t as [|c t IH]; [reflexivity|].
      cbn [Chars.all] in Hpath |- *.
      apply andb_true_iff in Hpath as [Hc Ht]. rewrite (IH Ht), andb_true_r.
      destruct (Ascii.eqb_spec c x) as [->|]; [congruence | reflexivity]. }
    rewrite Hall, andb_true_r.
    destruct (Ascii.eqb_spec "/"%char x) as [<-|]; [discriminate Hx|reflexivity]. }
  pose proof (rest_ok_path t (all_path_visible t Hpath)) as Ht.
  unfold url_fields in Hp.
  destruct Hp as [<-|[<-|[<-|[]]]]; vm_compute in Hb; injection Hb as <-.
  1, 2: exists (Url.mk_url "http" (Url.IPv4 127 0 0 1) (Some 5000%N) "").
  3: exists (Url.mk_url "http" (Url.IPv4 127 0 0 1) (Some 8100%N) "").
  all: split; [vm_compute; reflexivity|]; split; [reflexivity|].
  all: split; [|split; apply Hfree; reflexivity].
  1, 2: change ("http://127.0.0.1:5000" ++ String "/" t)
    with (String "h" "ttp" ++ "://" ++ "127.0.0.1"
          ++ String ":" ("5000" ++ String "/" t)).
  3: change ("http://127.0.0.1:8100" ++ String "/" t)
    with (String "h" "ttp" ++ "://" ++ "127.0.0.1"
          ++ String ":" ("8100" ++ String "/" t)).
  all: rewrite parse_parts by (reflexivity || discriminate);
    rewrite take_port_digits by (reflexivity || discriminate);
    cbv - [Url.rest_ok]; rewrite Ht; reflexivity.
Qed.

(** What follows a URL field must start with a separator or go on with
    the port, for the grammar to take it. *)
Lemma url_field_then_other
  (p : path) (base : string) (c : ascii) (t : string) :
  In p url_fields ->
  get_string p environment = Some base ->
  Chars.is_digit c = false ->
  Chars.one_of "/?#" c = false ->
  Url.parse (base ++ String c t) = None.
Proof.
  intros Hp Hb Hd Hs.
  assert (Hr : Url.rest_ok (String c t) = false)
    by (unfold Url.rest_ok; now rewrite Hs).
  apply (span_stop _ c t) in Hd.
  unfold url_fields in Hp.
  destruct Hp as [<-|[<-|[<-|[]]]]; vm_compute in Hb; injection Hb as <-.
  1, 2: change ("http://127.0.0.1:5000" ++ String c t)
    with (String "h" "ttp" ++ "://" ++ "127.0.0.1"
          ++ String ":" ("5000" ++ String c t)).
  3: change ("http://127.0.0.1:8100" ++ String c t)
    with (String "h" "ttp" ++ "://" ++ "127.0.0.1"
          ++ String ":" ("8100" ++ String c t)).
  all: rewrite parse_parts by (reflexivity || discriminate);
    rewrite take_port_digits by (exact Hd || reflexivity || discriminate);
    cbv - [Url.rest_ok]; rewrite Hr; reflexivity.
Qed.

(** X2: no URL field ends in "/": putting straight after it a string
    that starts with a letter and holds no "@" (a path segment without
    its leading slash) does not give a URL, the letter falling where
    only port digits or a separator may stand.  Strings with an "@" are
    left out: there the front could be read as user information, which
    the grammar here does not know. *)
Theorem url_field_needs_separator
  (p : path) (base : string) (c : ascii) (t : string) :
  In p url_fields ->
  get_string p environment = Some base ->
  Chars.is_alpha c = true ->
  free_of "@" t = true ->
  Url.parse (base ++ String c t) = None.
Proof.
  intros Hp Hb Hc _. destruct (alpha_stops c Hc) as [Hd Hs].
  now apply (url_field_then_other p).
Qed.

(** X3: the [url] field of [auth0] is a domain prefix, not a URL: alone
    it does not parse, and after any scheme and "://", with any run of
    host characters behind it, it is the front of the URL's host name. *)
Theorem domain_prefix_is_host_prefix (c0 : ascii) (sch d t : string) :
  get_string ["auth0"; "url"] environment = Some d ->
  Chars.is_alpha c0 = true ->
  Chars.all Url.is_scheme_char sch = true ->
  Chars.all Url.is_host_char t = true ->
  Url.parse d = None
  /\ Url.parse (String c0 sch ++ "://" ++ d ++ t)
     = Some (Url.mk_url (String c0 sch) (Url.RegName (d ++ t)) None "").
Proof.
  intros Hd Hc Hs Ht. vm_compute in Hd. injection Hd as <-.
  split; [vm_compute; reflexivity|].
  assert (Hh : Chars.all Url.is_host_char ("ui-integrated.eu" ++ t) = true)
    by now rewrite all_app, Ht.
  assert (Hne : "ui-integrated.eu" ++ t <> "") by discriminate.
  pose proof (parse_parts c0 sch _ "" Hc Hs Hh Hne eq_refl) as P.
  rewrite append_empty_r in P. rewrite P.
  cbn [Url.take_port Url.rest_ok].
  assert (Hcl : Url.classify ("ui-integrated.eu" ++ t)
                = Url.RegName ("ui-integrated.eu" ++ t))
    by (vm_compute; reflexivity).
  now rewrite Hcl.
Qed.

(** ** Assignments to the record *)

(** X4: an assignment to a field of a value of the field's own type
    goes through, leaves the record with the same shape, and changes no
    other field. *)
Theorem typed_write_keeps_shape (p : path) (old x : value) :
  In (p, old) (leaves environment) ->
  typeof x = typeof old ->
  exists r' : value,
    put p x environment = Some r'
    /\ shape_of r' = shape_of environment
    /\ forall q : path,
         q <> p -> In q (map fst (leaves environment)) ->
         get q r' = get q environment.
Proof.
  intros Hp Hx. cbv [leaves environment under map app fst snd] in Hp.
  repeat (destruct Hp as [E|Hp];
          [injection E as <- <-;
           destruct x as [b|s|ps]; try discriminate Hx;
           eexists; split; [reflexivity|]; split; [reflexivity|];
           intros q Hq Hin; cbv [leaves environment under map app fst snd] in Hin;
           repeat (destruct Hin as [<-|Hin];
                   [first [reflexivity | now elim Hq]|]);
           destruct Hin|]).
  destruct Hp.
Qed.

(** X5: an overwrite of a field is seen by the next read of it, and
    writing the old value back gives the literal again, property order
    included. *)
Theorem overwrite_undone (p : path) (old x : value) :
  In (p, old) (leaves environment) ->
  exists r' : value,
    put p x environment = Some r'
    /\ get p r' = Some x
    /\ put p old r' = Some environment.
Proof.
  intros Hp. cbv [leaves environment under map app fst snd] in Hp.
  repeat (destruct Hp as [E|Hp];
          [injection E as <- <-; eexists; split; [reflexivity|];
           split; reflexivity|]).
  destruct Hp.
Qed.

Lemma url_field_extends_with_path_witness :
  In ["apiServerUrl"] url_fields
  /\ get_string ["apiServerUrl"] environment = Some "http://127.0.0.1:5000"
  /\ Chars.all is_path_char "drinks" = true
  /\ exists u : Url.url,
       Url.parse "http://127.0.0.1:5000" = Some u
       /\ Url.rest u = ""
       /\ Url.parse ("http://127.0.0.1:5000" ++ String "/" "drinks")
          = Some (Url.mk_url (Url.scheme u) (Url.authority_host u)
                    (Url.port u) (String "/" "drinks"))
       /\ free_of "?" (String "/" "drinks") = true
       /\ free_of "#" (String "/" "drinks") = true.
Proof.
  assert (I : In ["apiServerUrl"] url_fields) by (left; reflexivity).
  split; [exact I|]. split; [reflexivity|]. split; [reflexivity|].
  exact (url_field_extends_with_path ["apiServerUrl"]
           "http://127.0.0.1:5000" "drinks" I eq_refl eq_refl).
Defined.

Lemma url_field_needs_separator_witness :
  In ["auth0"; "callbackURL"] url_fields
  /\ get_string ["auth0"; "callbackURL"] environment
     = Some "http://127.0.0.1:8100"
  /\ Chars.is_alpha "t" = true
  /\ free_of "@" "abs/home" = true
  /\ Url.parse ("http://127.0.0.1:8100" ++ String "t" "abs/home") = None.
Proof.
  assert (I : In ["auth0"; "callbackURL"] url_fields)
    by (right; right; left; reflexivity).
  split; [exact I|]. split; [reflexivity|]. split; [reflexivity|].
  split; [reflexivity|].
  exact (url_field_needs_separator ["auth0"; "callbackURL"]
           "http://127.0.0.1:8100" "t" "abs/home" I eq_refl eq_refl eq_refl).
Defined.

Lemma domain_prefix_is_host_prefix_witness :
  get_string ["auth0"; "url"] environment = Some "ui-integrated.eu"
  /\ Chars.is_alpha "h" = true
  /\ Chars.all Url.is_scheme_char "ttps" = true
  /\ Chars.all Url.is_host_char ".auth0.com" = true
  /\ Url.parse "ui-integrated.eu" = None
  /\ Url.parse (String "h" "ttps" ++ "://" ++ "ui-integrated.eu" ++ ".auth0.com")
     = Some (Url.mk_url (String "h" "ttps")
               (Url.RegName ("ui-integrated.eu" ++ ".auth0.com")) None "").
Proof.
  split; [reflexivity|]. split; [reflexivity|]. split; [reflexivity|].
  split; [reflexivity|].
  exact (domain_prefix_is_host_prefix "h" "ttps" "ui-integrated.eu"
           ".auth0.com" eq_refl eq_refl eq_refl eq_refl).
Defined.

Lemma typed_write_keeps_shape_witness :
  In (["production"], VBool false) (leaves environment)
  /\ typeof (VBool true) = typeof (VBool false)
  /\ exists r' : value,
       put ["production"] (VBool true) environment = Some r'
       /\ shape_of r' = shape_of environment
       /\ forall q : path,
            q <> ["production"] -> In q (map fst (leaves environment)) ->
            get q r' = get q environment.
Proof.
  assert (I : In (["production"], VBool false) (leaves environment))
    by (left; reflexivity).
  split; [exact I|]. split; [reflexivity|].
  exact (typed_write_keeps_shape ["production"] (VBool false) (VBool true)
           I eq_refl).
Defined.

Lemma overwrite_undone_witness :
  In (["auth0"; "url"], VStr "ui-integrated.eu") (leaves environment)
  /\ exists r' : value,
       put ["auth0"; "url"] (VStr "dev-tenant") environment = Some r'
       /\ get ["auth0"; "url"] r' = Some (VStr "dev-tenant")
       /\ put ["auth0"; "url"] (VStr "ui-integrated.eu") r' = Some environment.
Proof.
  assert (I : In (["auth0"; "url"], VStr "ui-integrated.eu")
                (leaves environment))
    by (right; right; left; reflexivity).
  split; [exact I|].
  exact (overwrite_undone ["auth0"; "url"] (VStr "ui-integrated.eu")
           (VStr "dev-tenant") I).
Defined.
